(** * Incident-management-system: the CSV-to-Excel converter and the workbook inspector

    A shallow embedding of [scripts/csv_to_excel.py] and
    [scripts/test_excel.py].  Both scripts are straight-line Python: one
    guarded block around calls into the tabular-data library, console
    output through [print], and a process exit status.  The embedding
    follows that shape:

    - Python exceptions are an inductive type ([Exception] and
      [SystemExit]) and a computation is a function from the world to a new
      world and an outcome (a returned value or a raised exception);
    - the world holds the filesystem, the lines printed to standard output
      and a log of the calls that reached the operating system or the
      library;
    - the library ([pandas]) and [os.path.exists] are not code of this
      repository: they are the fields of the class [Runtime], and every
      theorem holds for every runtime.  [Module Toy] gives one small
      executable runtime on which the theorems are exercised;
      [Module PandasLike] gives a second one that renames repeated header
      fields and drops trailing empty rows as the library does. *)

From Stdlib Require Import String Ascii List ZArith Lia Bool Arith DecimalString.
From ExtLib Require Import Structures.Monad.
Import ListNotations.
Import MonadNotation.

Local Open Scope string_scope.
Local Open Scope list_scope.
Local Open Scope monad_scope.

(* ===================================================================== *)
(** * Python values *)
(* ===================================================================== *)

(** The two exception classes the scripts can meet.  [Exception msg] is any
    instance of Python's [Exception], with [str(e) = msg]; [SystemExit] is
    what [sys.exit] raises, and is not an [Exception]. *)
Inductive PyExc : Type :=
| Exception (msg : string)
| SystemExit (code : Z).

(** What a library call gives back: a value, or an [Exception] with its
    message. *)
Inductive Result (A : Type) : Type :=
| Ok (a : A)
| Err (msg : string).

Arguments Ok {A} a.
Arguments Err {A} msg.

(** How a computation ends: it returns a value or raises. *)
Inductive Outcome (A : Type) : Type :=
| Return (a : A)
| Raise (e : PyExc).

Arguments Return {A} a.
Arguments Raise {A} e.

(** The line feed of the Python literal ["\nFirst 5 rows:"]. *)
Definition LF : string := String (ascii_of_nat 10) EmptyString.

(** [str(n)] for a non-negative [int]. *)
Definition str_int (n : nat) : string :=
  NilZero.string_of_uint (Nat.to_uint n).

(** [str((r, c))] for a pair of non-negative [int]s: what [f"{df.shape}"]
    renders. *)
Definition str_shape (s : nat * nat) : string :=
  "(" ++ str_int (fst s) ++ ", " ++ str_int (snd s) ++ ")".

(* ===================================================================== *)
(** * The tabular frame *)
(* ===================================================================== *)

(** Modelled from the spec: the tabular frame ([pandas.DataFrame]), a type
    of the third-party library: "an in-memory table with an ordered
    sequence of named columns and an ordered sequence of rows".  Only what
    the scripts observe is kept: the column labels, the rows, [shape] and
    [head]. *)
Record DataFrame (Label Cell : Type) : Type := mkFrame {
  columns : list Label;
  rows : list (list Cell)
}.

Arguments mkFrame {Label Cell} columns rows.
Arguments columns {Label Cell} d.
Arguments rows {Label Cell} d.

Section Frame.
Context {Label Cell : Type}.

(** [df.shape]: (row count, column count). *)
Definition shape (df : DataFrame Label Cell) : nat * nat :=
  (length (rows df), length (columns df)).

(** [df.head(n)]: the first [n] rows, all columns. *)
Definition head_n (n : nat) (df : DataFrame Label Cell) : DataFrame Label Cell :=
  mkFrame (columns df) (firstn n (rows df)).

(** [df.head()]: [n] defaults to 5. *)
Definition head (df : DataFrame Label Cell) : DataFrame Label Cell :=
  head_n 5 df.
End Frame.

(* ===================================================================== *)
(** * The runtime: operating system and library *)
(* ===================================================================== *)

(** What the scripts call and do not define.  A failure of a library call
    is an [Exception] (parser errors, [OSError], [ValueError] all are).
    [to_excel] returns a filesystem also when it fails: a failed write may
    leave something behind. *)
Class Runtime : Type := {
  FS : Type;
  Label : Type;
  Cell : Type;
  (** [os.path.exists(p)] *)
  path_exists : FS -> string -> bool;
  (** [pd.read_csv(p)] *)
  read_csv : FS -> string -> Result (DataFrame Label Cell);
  (** [df.to_excel(p, index=i)] *)
  to_excel : DataFrame Label Cell -> string -> bool -> FS -> FS * Result unit;
  (** [pd.read_excel(p)] *)
  read_excel : FS -> string -> Result (DataFrame Label Cell);
  (** [str(col)] for a column label *)
  str_label : Label -> string;
  (** [str(df)]: the table as [print] shows it *)
  str_frame : DataFrame Label Cell -> string
}.

Section Scripts.
Context {R : Runtime}.

Definition Frame : Type := DataFrame Label Cell.

(** A call that left the interpreter, as the log records it. *)
Inductive Call : Type :=
| CallExists (p : string)
| CallReadCsv (p : string)
| CallToExcel (df : Frame) (p : string) (index : bool)
| CallReadExcel (p : string).

(** The world a script runs in.  [calls] is bookkeeping: it lets a
    theorem say which operations were attempted. *)
Record World : Type := mkWorld {
  fs : FS;
  stdout : list string;
  calls : list Call
}.

(** ** Computations *)

Definition Py (A : Type) : Type := World -> World * Outcome A.

Definition py_ret {A} (a : A) : Py A := fun w => (w, Return a).

Definition py_bind {A B} (c : Py A) (k : A -> Py B) : Py B :=
  fun w =>
    match c w with
    | (w', Return a) => k a w'
    | (w', Raise e) => (w', Raise e)
    end.

#[export] Instance Monad_Py : Monad Py :=
  {| ret := @py_ret; bind := @py_bind |}.

Definition py_raise {A} (e : PyExc) : Py A := fun w => (w, Raise e).

(** [try: body  except Exception as e: handler(str(e))].  A [SystemExit]
    passes through. *)
Definition try_except {A} (body : Py A) (handler : string -> Py A) : Py A :=
  fun w =>
    match body w with
    | (w', Raise (Exception msg)) => handler msg w'
    | r => r
    end.

(** [for x in xs: body(x)] *)
Fixpoint for_each {A} (xs : list A) (body : A -> Py unit) : Py unit :=
  match xs with
  | [] => ret tt
  | x :: xs' => body x ;; for_each xs' body
  end.

(** ** Built-ins and library calls *)

Definition log (c : Call) (w : World) : World :=
  mkWorld (fs w) (stdout w) (calls w ++ [c]).

(** [print(s)]: one element of [stdout] per call.  Writing to standard
    output is taken to succeed. *)
Definition print (s : string) : Py unit :=
  fun w => (mkWorld (fs w) (stdout w ++ [s]) (calls w), Return tt).

(** [sys.exit(code)] *)
Definition sys_exit {A} (code : Z) : Py A := py_raise (SystemExit code).

(** [argv[i]], with Python's [IndexError] *)
Definition argv_get (argv : list string) (i : nat) : Py string :=
  match nth_error argv i with
  | Some a => ret a
  | None => py_raise (Exception "list index out of range")
  end.

Definition lift_result {A} (r : Result A) : Outcome A :=
  match r with
  | Ok a => Return a
  | Err msg => Raise (Exception msg)
  end.

Definition os_path_exists (p : string) : Py bool :=
  fun w => (log (CallExists p) w, Return (path_exists (fs w) p)).

Definition pd_read_csv (p : string) : Py Frame :=
  fun w => (log (CallReadCsv p) w, lift_result (read_csv (fs w) p)).

Definition pd_read_excel (p : string) : Py Frame :=
  fun w => (log (CallReadExcel p) w, lift_result (read_excel (fs w) p)).

Definition df_to_excel (df : Frame) (p : string) (index : bool) : Py unit :=
  fun w =>
    let (fs', r) := to_excel df p index (fs w) in
    (mkWorld fs' (stdout w) (calls w ++ [CallToExcel df p index]), lift_result r).

(** ** The interpreter around a script *)

(** The exit status of a script body: 0 when it runs to its end, the
    code of a [SystemExit], 1 for any other exception that reaches the
    top level. *)
Definition run_script (body : Py unit) (w : World) : World * Z :=
  match body w with
  | (w', Return _) => (w', 0%Z)
  | (w', Raise (SystemExit code)) => (w', code)
  | (w', Raise (Exception _)) => (w', 1%Z)
  end.
End Scripts.

(* ===================================================================== *)
(** * scripts/csv_to_excel.py *)
(* ===================================================================== *)

Module CsvToExcel.
Section Code.
Context {R : Runtime}.

Definition csv_to_excel (csv_file excel_file : string) : Py bool :=
  try_except
    (found <- os_path_exists csv_file ;;
     if negb found then
       print ("Error: Input file " ++ csv_file ++ " does not exist") ;;
       ret false
     else
       df <- pd_read_csv csv_file ;;
       df_to_excel df excel_file false ;;
       print ("Successfully converted " ++ csv_file ++ " to " ++ excel_file) ;;
       ret true)
    (fun e =>
       print ("Error converting file: " ++ e) ;;
       ret false).

Definition usage : string :=
  "Usage: python csv_to_excel.py <input.csv> <output.xlsx>".

(** The block under [if __name__ == "__main__":]. *)
Definition main (argv : list string) : Py unit :=
  (if negb (length argv =? 3)%nat then
     print usage ;;
     sys_exit 1
   else ret tt) ;;
  csv_file <- argv_get argv 1 ;;
  excel_file <- argv_get argv 2 ;;
  success <- csv_to_excel csv_file excel_file ;;
  if negb success then sys_exit 1 else ret tt.
End Code.
End CsvToExcel.

(* ===================================================================== *)
(** * scripts/test_excel.py *)
(* ===================================================================== *)

Module TestExcel.
Section Code.
Context {R : Runtime}.

Definition test_excel_file (file_path : string) : Py bool :=
  try_except
    (df <- pd_read_excel file_path ;;
     print "File read successfully!" ;;
     print ("Shape: " ++ str_shape (shape df)) ;;
     print "Columns:" ;;
     for_each (columns df) (fun col => print ("  - " ++ str_label col)) ;;
     print (LF ++ "First 5 rows:") ;;
     print (str_frame (head df)) ;;
     ret true)
    (fun e =>
       print ("Error reading file: " ++ e) ;;
       ret false).

Definition usage : string := "Usage: python test_excel.py <file.xlsx>".

(** The block under [if __name__ == "__main__":]. *)
Definition main (argv : list string) : Py unit :=
  (if negb (length argv =? 2)%nat then
     print usage ;;
     sys_exit 1
   else ret tt) ;;
  file_path <- argv_get argv 1 ;;
  success <- test_excel_file file_path ;;
  if negb success then sys_exit 1 else ret tt.
End Code.
End TestExcel.

(* ===================================================================== *)
(** * What a run added to the world *)
(* ===================================================================== *)

Section Observations.
Context {R : Runtime}.

(** The calls logged between the world [w] and the later world [w']. *)
Definition new_calls (w w' : World) : list Call :=
  skipn (length (calls w)) (calls w').

(** A call that reads file contents. *)
Definition is_read (c : Call) : bool :=
  match c with
  | CallReadCsv _ | CallReadExcel _ => true
  | _ => false
  end.

(** A call that writes a file. *)
Definition is_write (c : Call) : bool :=
  match c with
  | CallToExcel _ _ _ => true
  | _ => false
  end.

(** [len(sys.argv) - 1]: the number of command-line arguments after the
    program name. *)
Definition arg_count (argv : list string) : nat := length argv - 1.

(** The inspector's report, one element per [print]: the confirmation,
    the shape, the column names, the table of the first rows. *)
Definition summary_lines (shp : nat * nat) (names : list string) (table : string)
    : list string :=
  ["File read successfully!";
   ("Shape: " ++ str_shape shp)%string;
   "Columns:"]
  ++ map (fun name => ("  - " ++ name)%string) names
  ++ [(LF ++ "First 5 rows:")%string; table].

(** The report on a frame. *)
Definition summary (df : Frame) : list string :=
  summary_lines (shape df) (map str_label (columns df)) (str_frame (head df)).

End Observations.

(* ===================================================================== *)
(** * A small executable runtime *)
(* ===================================================================== *)

(** A stand-in for the operating system and the library, small enough to
    run inside Rocq: files are text or workbooks, a CSV is split at line
    feeds and commas, a workbook is its rows of cells.  It is one instance
    of [Runtime]; no theorem about the scripts depends on it. *)
Module Toy.

Inductive File : Type :=
| Text (s : string)
| Workbook (sheet : list (list string)).

Definition Disk : Type := list (string * File).

Fixpoint lookup (d : Disk) (p : string) : option File :=
  match d with
  | [] => None
  | (q, f) :: d' => if (q =? p)%string then Some f else lookup d' p
  end.

Definition store (p : string) (f : File) (d : Disk) : Disk := (p, f) :: d.

Fixpoint split_on (sep : ascii) (s : string) : list string :=
  match s with
  | EmptyString => [EmptyString]
  | String c s' =>
      if Ascii.eqb c sep then EmptyString :: split_on sep s'
      else match split_on sep s' with
           | [] => [String c EmptyString]
           | h :: t => String c h :: t
           end
  end.

Definition non_blank (l : string) : bool := negb (l =? "")%string.

Definition parse_csv (s : string) : Result (DataFrame string string) :=
  match filter non_blank (split_on (ascii_of_nat 10) s) with
  | [] => Err "No columns to parse from file"
  | h :: rs => Ok (mkFrame (split_on "," h) (map (split_on ",") rs))
  end.

Definition no_such_file (p : string) : string :=
  "[Errno 2] No such file or directory: '" ++ p ++ "'".

Definition toy_read_csv (d : Disk) (p : string) : Result (DataFrame string string) :=
  match lookup d p with
  | None => Err (no_such_file p)
  | Some (Text s) => parse_csv s
  | Some (Workbook _) => Err "'utf-8' codec can't decode byte 0x50 in position 0"
  end.

Definition extension (p : string) : string :=
  match split_on "." p with
  | [] | [_] => ""
  | parts => last parts ""
  end.

Fixpoint number_rows (i : nat) (rs : list (list string)) : list (list string) :=
  match rs with
  | [] => []
  | r :: rs' => (str_int i :: r) :: number_rows (S i) rs'
  end.

Definition sheet_of (df : DataFrame string string) (index : bool) : list (list string) :=
  if index then ("" :: columns df) :: number_rows 0 (rows df)
  else columns df :: rows df.

Definition toy_to_excel (df : DataFrame string string) (p : string) (index : bool)
    (d : Disk) : Disk * Result unit :=
  if (extension p =? "xlsx")%string
  then (store p (Workbook (sheet_of df index)) d, Ok tt)
  else (d, Err ("No engine for filetype: '" ++ extension p ++ "'")).

Definition toy_read_excel (d : Disk) (p : string) : Result (DataFrame string string) :=
  match lookup d p with
  | None => Err (no_such_file p)
  | Some (Text _) =>
      Err "Excel file format cannot be determined, you must specify an engine manually."
  | Some (Workbook []) => Ok (mkFrame [] [])
  | Some (Workbook (h :: rs)) => Ok (mkFrame h rs)
  end.

Definition toy_str_frame (df : DataFrame string string) : string :=
  String.concat LF (map (String.concat "  ") (columns df :: rows df)).

#[export] Instance runtime : Runtime := {|
  FS := Disk;
  Label := string;
  Cell := string;
  path_exists := fun d p => match lookup d p with Some _ => true | None => false end;
  read_csv := toy_read_csv;
  to_excel := toy_to_excel;
  read_excel := toy_read_excel;
  str_label := fun s => s;
  str_frame := toy_str_frame
|}.

(** Three incidents under a two-column header. *)
Definition incidents_csv : string :=
  "id,status" ++ LF ++ "1,open" ++ LF ++ "2,closed" ++ LF ++ "3,open" ++ LF.

(** A header and no data row. *)
Definition header_only_csv : string := "id,status,owner" ++ LF.

Definition disk0 : Disk :=
  [("incidents.csv", Text incidents_csv);
   ("empty.csv", Text header_only_csv);
   ("blank.csv", Text "");
   ("old.xlsx", Workbook [["a"; "b"]; ["1"; "2"]])].

Definition world0 : World := mkWorld (disk0 : FS) [] [].

(** The world after ["incidents.csv"] was converted to ["out.xlsx"]. *)
Definition converted : World :=
  fst (CsvToExcel.csv_to_excel "incidents.csv" "out.xlsx" world0).
End Toy.

(* ===================================================================== *)
(** * A runtime that loses what the library loses *)
(* ===================================================================== *)

Section FrameRoundTrip.
Context {R : Runtime}.

End FrameRoundTrip.

(** A second stand-in for the library.  [pandas] is not code of this
    repository; this runtime follows it on the two points where a CSV and
    the workbook made from it part ways: [read_csv] renames a repeated
    header field ([x], [x.1], [x.2], ...), and the workbook reader drops
    the empty rows at the end of a sheet.  An empty field is a missing
    value, written as an empty cell.  Files, the CSV splitter and the
    writer are those of [Toy]. *)
Module PandasLike.

(** The fields of the non-blank lines of a CSV text. *)
Definition records (text : string) : list (list string) :=
  map (Toy.split_on ",") (filter Toy.non_blank (Toy.split_on (ascii_of_nat 10) text)).



Fixpoint count_of (counts : list (string * nat)) (name : string) : nat :=
  match counts with
  | [] => 0
  | (k, n) :: rest => if (k =? name)%string then n else count_of rest name
  end.

(** The library's loop that looks for a name not yet in use: while [col]
    was seen [cur] times, count it once more and try [col.cur]. *)
Fixpoint fresh_name (fuel : nat) (counts : list (string * nat)) (col : string)
    : string * list (string * nat) :=
  match fuel with
  | 0 => (col, counts)
  | S fuel' =>
      match count_of counts col with
      | 0 => (col, counts)
      | S cur' =>
          fresh_name fuel' ((col, S (S cur')) :: counts)
            (col ++ "." ++ str_int (S cur'))
      end
  end.

Fixpoint dedup_names (counts : list (string * nat)) (names : list string) : list string :=
  match names with
  | [] => []
  | col :: rest =>
      let (col', counts') := fresh_name (S (length counts)) counts col in
      col' :: dedup_names ((col', 1) :: counts') rest
  end.

Definition parse_csv (text : string) : Result (DataFrame string string) :=
  match records text with
  | [] => Err "No columns to parse from file"
  | h :: rs => Ok (mkFrame (dedup_names [] h) rs)
  end.

Definition like_read_csv (d : Toy.Disk) (p : string) : Result (DataFrame string string) :=
  match Toy.lookup d p with
  | None => Err (Toy.no_such_file p)
  | Some (Toy.Text s) => parse_csv s
  | Some (Toy.Workbook _) => Err "'utf-8' codec can't decode byte 0x50 in position 0"
  end.

Definition empty_row (r : list string) : bool :=
  forallb (fun c => (c =? "")%string) r.

Fixpoint trim_trailing_rows (sheet : list (list string)) : list (list string) :=
  match sheet with
  | [] => []
  | r :: rest =>
      match trim_trailing_rows rest with
      | [] => if empty_row r then [] else [r]
      | kept => r :: kept
      end
  end.

Definition like_read_excel (d : Toy.Disk) (p : string) : Result (DataFrame string string) :=
  match Toy.lookup d p with
  | None => Err (Toy.no_such_file p)
  | Some (Toy.Text _) =>
      Err "Excel file format cannot be determined, you must specify an engine manually."
  | Some (Toy.Workbook sheet) =>
      match trim_trailing_rows sheet with
      | [] => Ok (mkFrame [] [])
      | h :: rs => Ok (mkFrame h rs)
      end
  end.

#[export] Instance runtime : Runtime := {|
  FS := Toy.Disk;
  Label := string;
  Cell := string;
  path_exists := fun d p => match Toy.lookup d p with Some _ => true | None => false end;
  read_csv := like_read_csv;
  to_excel := Toy.toy_to_excel;
  read_excel := like_read_excel;
  str_label := fun s => s;
  str_frame := Toy.toy_str_frame
|}.

(** The header [a,a] over one data row of two empty fields. *)
Definition dup_csv : string := "a,a" ++ LF ++ "," ++ LF.

Definition disk0 : Toy.Disk :=
  [("dup.csv", Toy.Text dup_csv);
   ("incidents.csv", Toy.Text Toy.incidents_csv);
   ("empty.csv", Toy.Text Toy.header_only_csv)].

Definition world0 : World := mkWorld (disk0 : FS) [] [].


End PandasLike.

(* ===================================================================== *)
(** * The paths through the two functions *)
(* ===================================================================== *)

(** Unfolds the monad and the built-ins down to matches on the runtime's
    answers. *)
Ltac run_py :=
  cbv beta iota delta
    [bind ret Monad_Py py_bind py_ret py_raise try_except
     os_path_exists pd_read_csv pd_read_excel df_to_excel
     print sys_exit log lift_result fs stdout calls negb].

(** Opens a function of the scripts at a world taken apart into its
    fields. *)
Ltac start_py w :=
  let d := fresh "d" in
  let so := fresh "so" in
  let sc := fresh "sc" in
  destruct w as [d so sc];
  cbn [fs stdout calls] in *;
  unfold CsvToExcel.csv_to_excel, TestExcel.test_excel_file;
  run_py.

Section Paths.
Context {R : Runtime}.

Lemma world_eta (w : World) : mkWorld (fs w) (stdout w) (calls w) = w.
Proof. destruct w; reflexivity. Qed.

Lemma for_each_print (f : Label -> string) (l : list Label) (w : World) :
  for_each l (fun col => print (f col)) w
  = (mkWorld (fs w) (stdout w ++ map f l) (calls w), Return tt).
Proof.
  revert w; induction l as [|c l IH]; intros w.
  - cbn. rewrite app_nil_r, world_eta. reflexivity.
  - cbn [for_each map]. destruct w as [d so sc]. run_py. rewrite IH.
    cbn [fs stdout calls]. rewrite <- app_assoc. reflexivity.
Qed.

(** *** csv_to_excel: the four ways through *)

Lemma csv_to_excel_missing (csv_file excel_file : string) (w : World) :
  path_exists (fs w) csv_file = false ->
  CsvToExcel.csv_to_excel csv_file excel_file w
  = (mkWorld (fs w)
       (stdout w ++ ["Error: Input file " ++ csv_file ++ " does not exist"]%string)
       (calls w ++ [CallExists csv_file]),
     Return false).
Proof.
  intros Hex. start_py w.
  rewrite Hex. run_py. reflexivity.
Qed.

Lemma csv_to_excel_parse_error (csv_file excel_file msg : string) (w : World) :
  path_exists (fs w) csv_file = true ->
  read_csv (fs w) csv_file = Err msg ->
  CsvToExcel.csv_to_excel csv_file excel_file w
  = (mkWorld (fs w)
       (stdout w ++ ["Error converting file: " ++ msg]%string)
       (calls w ++ [CallExists csv_file; CallReadCsv csv_file]),
     Return false).
Proof.
  intros Hex Hrd. start_py w.
  rewrite Hex. run_py. rewrite Hrd. run_py.
  rewrite <- app_assoc. reflexivity.
Qed.

Lemma csv_to_excel_write_error (csv_file excel_file msg : string) (w : World)
    (df : Frame) (d' : FS) :
  path_exists (fs w) csv_file = true ->
  read_csv (fs w) csv_file = Ok df ->
  to_excel df excel_file false (fs w) = (d', Err msg) ->
  CsvToExcel.csv_to_excel csv_file excel_file w
  = (mkWorld d'
       (stdout w ++ ["Error converting file: " ++ msg]%string)
       (calls w ++ [CallExists csv_file; CallReadCsv csv_file;
                    CallToExcel df excel_file false]),
     Return false).
Proof.
  intros Hex Hrd Hwr. start_py w.
  rewrite Hex. run_py. rewrite Hrd. run_py. rewrite Hwr. run_py.
  rewrite <- !app_assoc. reflexivity.
Qed.

Lemma csv_to_excel_success (csv_file excel_file : string) (w : World)
    (df : Frame) (d' : FS) :
  path_exists (fs w) csv_file = true ->
  read_csv (fs w) csv_file = Ok df ->
  to_excel df excel_file false (fs w) = (d', Ok tt) ->
  CsvToExcel.csv_to_excel csv_file excel_file w
  = (mkWorld d'
       (stdout w ++ ["Successfully converted " ++ csv_file ++ " to " ++ excel_file]%string)
       (calls w ++ [CallExists csv_file; CallReadCsv csv_file;
                    CallToExcel df excel_file false]),
     Return true).
Proof.
  intros Hex Hrd Hwr. start_py w.
  rewrite Hex. run_py. rewrite Hrd. run_py. rewrite Hwr. run_py.
  rewrite <- !app_assoc. reflexivity.
Qed.

(** *** test_excel_file: the two ways through *)

Lemma test_excel_file_success (file_path : string) (w : World) (df : Frame) :
  read_excel (fs w) file_path = Ok df ->
  TestExcel.test_excel_file file_path w
  = (mkWorld (fs w) (stdout w ++ summary df) (calls w ++ [CallReadExcel file_path]),
     Return true).
Proof.
  intros Hrd. start_py w.
  rewrite Hrd. run_py.
  rewrite (for_each_print (fun col => ("  - " ++ str_label col)%string)).
  run_py. unfold summary, summary_lines. rewrite map_map, <- !app_assoc. reflexivity.
Qed.

Lemma test_excel_file_error (file_path msg : string) (w : World) :
  read_excel (fs w) file_path = Err msg ->
  TestExcel.test_excel_file file_path w
  = (mkWorld (fs w)
       (stdout w ++ ["Error reading file: " ++ msg]%string)
       (calls w ++ [CallReadExcel file_path]),
     Return false).
Proof.
  intros Hrd. start_py w.
  rewrite Hrd. run_py. reflexivity.
Qed.
End Paths.

(* ===================================================================== *)
(** * Whole-function summaries *)
(* ===================================================================== *)

Section Summaries.
Context {R : Runtime}.

Lemma skipn_length_app {A} (l extra : list A) :
  skipn (length l) (l ++ extra) = extra.
Proof. induction l as [|x l IH]; [reflexivity | exact IH]. Qed.

Lemma new_calls_app (d d' : FS) (so so' : list string) (sc cs : list Call) :
  new_calls (mkWorld d so sc) (mkWorld d' so' (sc ++ cs)) = cs.
Proof. unfold new_calls. cbn [calls]. apply skipn_length_app. Qed.

(** Whatever the runtime answers, [csv_to_excel] returns a boolean; the
    filesystem it leaves, the lines it prints, the calls it makes and
    the boolean are fixed by the two paths and the filesystem it
    starts from. *)
Lemma csv_to_excel_effect (csv_file excel_file : string) (d : FS) :
  exists (d' : FS) (out : list string) (cs : list Call) (ok : bool),
    forall so sc,
      CsvToExcel.csv_to_excel csv_file excel_file (mkWorld d so sc)
      = (mkWorld d' (so ++ out) (sc ++ cs), Return ok).
Proof.
  destruct (path_exists d csv_file) eqn:Hex.
  - destruct (read_csv d csv_file) as [df|msg] eqn:Hrd.
    + destruct (to_excel df excel_file false d) as [d' [[]|msg]] eqn:Hwr.
      * exists d'. do 3 eexists. intros so sc.
        apply (csv_to_excel_success csv_file excel_file (mkWorld d so sc) df d');
          assumption.
      * exists d'. do 3 eexists. intros so sc.
        apply (csv_to_excel_write_error csv_file excel_file msg (mkWorld d so sc) df d');
          assumption.
    + exists d. do 3 eexists. intros so sc.
      apply (csv_to_excel_parse_error csv_file excel_file msg (mkWorld d so sc));
        assumption.
  - exists d. do 3 eexists. intros so sc.
    apply (csv_to_excel_missing csv_file excel_file (mkWorld d so sc)); assumption.
Qed.

Lemma test_excel_file_effect (file_path : string) (d : FS) :
  exists (out : list string) (ok : bool),
    forall so sc,
      TestExcel.test_excel_file file_path (mkWorld d so sc)
      = (mkWorld d (so ++ out) (sc ++ [CallReadExcel file_path]), Return ok).
Proof.
  destruct (read_excel d file_path) as [df|msg] eqn:Hrd.
  - do 2 eexists. intros so sc.
    apply (test_excel_file_success file_path (mkWorld d so sc) df); assumption.
  - do 2 eexists. intros so sc.
    apply (test_excel_file_error file_path msg (mkWorld d so sc)); assumption.
Qed.

Lemma csv_to_excel_returns (csv_file excel_file : string) (w : World) :
  exists (w' : World) (ok : bool),
    CsvToExcel.csv_to_excel csv_file excel_file w = (w', Return ok).
Proof.
  destruct w as [d so sc].
  destruct (csv_to_excel_effect csv_file excel_file d) as (d' & out & cs & ok & H).
  eauto.
Qed.

Lemma test_excel_file_returns (file_path : string) (w : World) :
  exists (w' : World) (ok : bool),
    TestExcel.test_excel_file file_path w = (w', Return ok).
Proof.
  destruct w as [d so sc].
  destruct (test_excel_file_effect file_path d) as (out & ok & H).
  eauto.
Qed.

(** A run that returned [True] went through a successful parse and a
    successful write. *)
Lemma csv_to_excel_true_inv (csv_file excel_file : string) (w w' : World) :
  CsvToExcel.csv_to_excel csv_file excel_file w = (w', Return true) ->
  exists df : Frame,
    path_exists (fs w) csv_file = true
    /\ read_csv (fs w) csv_file = Ok df
    /\ to_excel df excel_file false (fs w) = (fs w', Ok tt).
Proof.
  intros Hrun.
  destruct (path_exists (fs w) csv_file) eqn:Hex.
  - destruct (read_csv (fs w) csv_file) as [df|msg] eqn:Hrd.
    + destruct (to_excel df excel_file false (fs w)) as [d' [[]|msg]] eqn:Hwr.
      * rewrite (csv_to_excel_success _ _ _ _ _ Hex Hrd Hwr) in Hrun.
        inversion Hrun; subst. exists df. auto.
      * rewrite (csv_to_excel_write_error _ _ _ _ _ _ Hex Hrd Hwr) in Hrun. discriminate.
    + rewrite (csv_to_excel_parse_error _ excel_file _ _ Hex Hrd) in Hrun. discriminate.
  - rewrite (csv_to_excel_missing _ excel_file _ Hex) in Hrun. discriminate.
Qed.

(** *** The two command lines *)

Lemma converter_main_usage (argv : list string) (w : World) :
  length argv <> 3 ->
  CsvToExcel.main argv w
  = (mkWorld (fs w) (stdout w ++ [CsvToExcel.usage]) (calls w), Raise (SystemExit 1)).
Proof.
  intros Hlen. unfold CsvToExcel.main.
  destruct (Nat.eqb_spec (length argv) 3) as [E|_]; [contradiction|].
  destruct w as [d so sc]. run_py. reflexivity.
Qed.

Lemma converter_main_run (prog csv_file excel_file : string) (w w' : World) (ok : bool) :
  CsvToExcel.csv_to_excel csv_file excel_file w = (w', Return ok) ->
  CsvToExcel.main [prog; csv_file; excel_file] w
  = (w', if ok then Return tt else Raise (SystemExit 1)).
Proof.
  intros Hrun. unfold CsvToExcel.main, argv_get.
  cbn [length Nat.eqb nth_error]. run_py. rewrite Hrun.
  destruct ok; reflexivity.
Qed.

Lemma inspector_main_usage (argv : list string) (w : World) :
  length argv <> 2 ->
  TestExcel.main argv w
  = (mkWorld (fs w) (stdout w ++ [TestExcel.usage]) (calls w), Raise (SystemExit 1)).
Proof.
  intros Hlen. unfold TestExcel.main.
  destruct (Nat.eqb_spec (length argv) 2) as [E|_]; [contradiction|].
  destruct w as [d so sc]. run_py. reflexivity.
Qed.

Lemma inspector_main_run (prog file_path : string) (w w' : World) (ok : bool) :
  TestExcel.test_excel_file file_path w = (w', Return ok) ->
  TestExcel.main [prog; file_path] w
  = (w', if ok then Return tt else Raise (SystemExit 1)).
Proof.
  intros Hrun. unfold TestExcel.main, argv_get.
  cbn [length Nat.eqb nth_error]. run_py. rewrite Hrun.
  destruct ok; reflexivity.
Qed.
End Summaries.


(* ===================================================================== *)
(** * The specification's properties *)
(* ===================================================================== *)

Section Properties.
Context {R : Runtime}.


(** C2.  When [os.path.exists] says the input path is missing, the
    convert operation returns [False], prints the diagnostic that names
    the path, makes no read and no write call, and leaves the filesystem
    as it was: nothing appears at the output path. *)
Theorem missing_input_reports_failure
    (csv_file excel_file : string) (w : World) :
  path_exists (fs w) csv_file = false ->
  exists w' : World,
    CsvToExcel.csv_to_excel csv_file excel_file w = (w', Return false)
    /\ stdout w'
       = stdout w ++ [("Error: Input file " ++ csv_file ++ " does not exist")%string]
    /\ new_calls w w' = [CallExists csv_file]
    /\ existsb is_read (new_calls w w') = false
    /\ existsb is_write (new_calls w w') = false
    /\ fs w' = fs w
    /\ path_exists (fs w') excel_file = path_exists (fs w) excel_file.
Proof.
  intros Hex. eexists. split.
  - apply csv_to_excel_missing. exact Hex.
  - destruct w as [d so sc]. cbn [fs stdout calls].
    rewrite new_calls_app. cbn. auto 10.
Qed.

(** C3.  The convert operation always returns a boolean: no exception
    reaches its caller.  A failure of the parse step and a failure of
    the write step are each turned into [False], with the library's
    message printed after "Error converting file: ". *)
Theorem converter_catches_failures
    (csv_file excel_file : string) (w : World) :
  (exists (w' : World) (ok : bool),
      CsvToExcel.csv_to_excel csv_file excel_file w = (w', Return ok))
  /\ (forall msg : string,
        path_exists (fs w) csv_file = true ->
        read_csv (fs w) csv_file = Err msg ->
        exists w' : World,
          CsvToExcel.csv_to_excel csv_file excel_file w = (w', Return false)
          /\ stdout w' = stdout w ++ [("Error converting file: " ++ msg)%string])
  /\ (forall (df : Frame) (d' : FS) (msg : string),
        path_exists (fs w) csv_file = true ->
        read_csv (fs w) csv_file = Ok df ->
        to_excel df excel_file false (fs w) = (d', Err msg) ->
        exists w' : World,
          CsvToExcel.csv_to_excel csv_file excel_file w = (w', Return false)
          /\ stdout w' = stdout w ++ [("Error converting file: " ++ msg)%string]).
Proof.
  split; [apply csv_to_excel_returns|]. split.
  - intros msg Hex Hrd. eexists. split.
    + apply csv_to_excel_parse_error; eassumption.
    + reflexivity.
  - intros df d' msg Hex Hrd Hwr. eexists. split.
    + eapply csv_to_excel_write_error; eassumption.
    + reflexivity.
Qed.

(** C4.  The converter's command line.  With an argument count other
    than 2 it prints the usage line and exits with status 1, having
    made no call and left the filesystem alone.  With two arguments its
    exit status is 0 when the convert operation returns [True] and 1
    when it returns [False]. *)
Theorem converter_cli_exit_status (argv : list string) (w : World) :
  (arg_count argv <> 2 ->
     run_script (CsvToExcel.main argv) w
     = (mkWorld (fs w) (stdout w ++ [CsvToExcel.usage]) (calls w), 1%Z))
  /\ (forall prog csv_file excel_file : string,
        argv = [prog; csv_file; excel_file] ->
        exists (w' : World) (ok : bool),
          CsvToExcel.csv_to_excel csv_file excel_file w = (w', Return ok)
          /\ run_script (CsvToExcel.main argv) w = (w', if ok then 0%Z else 1%Z)).
Proof.
  split.
  - intros Hcount. unfold run_script.
    rewrite converter_main_usage; [reflexivity|].
    unfold arg_count in Hcount. lia.
  - intros prog csv_file excel_file ->.
    destruct (csv_to_excel_returns csv_file excel_file w) as (w' & ok & Hrun).
    exists w', ok. split; [exact Hrun|].
    unfold run_script. rewrite (converter_main_run prog _ _ _ _ _ Hrun).
    destruct ok; reflexivity.
Qed.

(** C5.  When the workbook parses, the inspector returns [True] and
    prints, in this order, the confirmation, the shape as (row count,
    column count), the header "Columns:" with every column name on a
    line of its own in the frame's order, and the table of [df.head()]:
    the first five rows, which are all the rows of a frame that has
    fewer than five. *)
Theorem inspector_prints_summary
    (file_path : string) (w : World) (df : Frame) :
  read_excel (fs w) file_path = Ok df ->
  exists w' : World,
    TestExcel.test_excel_file file_path w = (w', Return true)
    /\ stdout w'
       = stdout w
         ++ summary_lines (length (rows df), length (columns df))
              (map str_label (columns df)) (str_frame (head df))
    /\ columns (head df) = columns df
    /\ rows (head df) = firstn 5 (rows df)
    /\ (length (rows df) < 5 -> head df = df)
    /\ fs w' = fs w.
Proof.
  intros Hrd. eexists. split.
  - apply test_excel_file_success. exact Hrd.
  - cbn [stdout fs]. repeat split.
    intros Hlt. destruct df as [cols rs]. unfold head, head_n.
    cbn [rows columns] in *.
    rewrite firstn_all2 by lia. reflexivity.
Qed.

(** C6.  When the read step of the inspector fails, the failure is
    caught: the function returns [False], the only line printed is
    "Error reading file: " followed by the library's message (no part of
    the summary), and the command line exits with status 1. *)
Theorem inspector_reports_read_failure
    (file_path msg : string) (w : World) :
  read_excel (fs w) file_path = Err msg ->
  exists w' : World,
    TestExcel.test_excel_file file_path w = (w', Return false)
    /\ stdout w' = stdout w ++ [("Error reading file: " ++ msg)%string]
    /\ fs w' = fs w
    /\ forall prog : string,
         run_script (TestExcel.main [prog; file_path]) w = (w', 1%Z).
Proof.
  intros Hrd. eexists. split; [|split; [|split]].
  - apply test_excel_file_error. exact Hrd.
  - reflexivity.
  - reflexivity.
  - intros prog. unfold run_script.
    rewrite (inspector_main_run prog _ _ _ _ (test_excel_file_error _ _ _ Hrd)).
    reflexivity.
Qed.

(** C8.  The frame the converter hands to the writer is the frame the
    parser returned: the same column names, each as often and in the
    same order (so unique names stay unique), the same rows in the same
    order, written with [index=False], that is without a row-index
    column.  And whatever the input, no other frame is ever written. *)
Theorem converter_writes_parsed_frame
    (csv_file excel_file : string) (w : World) :
  (forall df : Frame,
      path_exists (fs w) csv_file = true ->
      read_csv (fs w) csv_file = Ok df ->
      exists (w' : World) (ok : bool) (written : Frame) (index : bool),
        CsvToExcel.csv_to_excel csv_file excel_file w = (w', Return ok)
        /\ new_calls w w'
           = [CallExists csv_file; CallReadCsv csv_file;
              CallToExcel written excel_file index]
        /\ columns written = columns df
        /\ rows written = rows df
        /\ (NoDup (columns df) -> NoDup (columns written))
        /\ index = false
        /\ fs w' = fst (to_excel written excel_file index (fs w)))
  /\ (forall (written : Frame) (p : string) (index : bool),
        In (CallToExcel written p index)
           (new_calls w (fst (CsvToExcel.csv_to_excel csv_file excel_file w))) ->
        p = excel_file /\ index = false /\ read_csv (fs w) csv_file = Ok written).
Proof.
  split.
  - intros df Hex Hrd.
    destruct (to_excel df excel_file false (fs w)) as [d' [[]|msg]] eqn:Hwr.
    + eexists. exists true, df, false. split.
      * eapply csv_to_excel_success; eassumption.
      * destruct w as [d so sc]. rewrite new_calls_app, Hwr. cbn. auto 10.
    + eexists. exists false, df, false. split.
      * eapply csv_to_excel_write_error; eassumption.
      * destruct w as [d so sc]. rewrite new_calls_app, Hwr. cbn. auto 10.
  - intros written p index Hin.
    destruct (path_exists (fs w) csv_file) eqn:Hex.
    + destruct (read_csv (fs w) csv_file) as [df|msg] eqn:Hrd.
      * assert (Hcalls : new_calls w (fst (CsvToExcel.csv_to_excel csv_file excel_file w))
                         = [CallExists csv_file; CallReadCsv csv_file;
                            CallToExcel df excel_file false]).
        { destruct (to_excel df excel_file false (fs w)) as [d' [[]|msg]] eqn:Hwr.
          - rewrite (csv_to_excel_success _ _ _ _ _ Hex Hrd Hwr).
            destruct w as [d so sc]. cbn [fst]. apply new_calls_app.
          - rewrite (csv_to_excel_write_error _ _ _ _ _ _ Hex Hrd Hwr).
            destruct w as [d so sc]. cbn [fst]. apply new_calls_app. }
        rewrite Hcalls in Hin.
        destruct Hin as [H|[H|[H|[]]]]; try discriminate.
        injection H as <- <- <-. auto.
      * rewrite (csv_to_excel_parse_error _ excel_file _ _ Hex Hrd) in Hin.
        destruct w as [d so sc]. cbn [fst] in Hin. rewrite new_calls_app in Hin.
        destruct Hin as [H|[H|[]]]; discriminate.
    + rewrite (csv_to_excel_missing _ excel_file _ Hex) in Hin.
      destruct w as [d so sc]. cbn [fst] in Hin. rewrite new_calls_app in Hin.
      destruct Hin as [H|[]]; discriminate.
Qed.

(** C9.  When the input exists and its parse fails, the convert
    operation returns [False] after the existence test and the read
    alone: the writer is never called, and the filesystem, the output
    path included, is as it was. *)
Theorem parse_failure_skips_write
    (csv_file excel_file msg : string) (w : World) :
  path_exists (fs w) csv_file = true ->
  read_csv (fs w) csv_file = Err msg ->
  exists w' : World,
    CsvToExcel.csv_to_excel csv_file excel_file w = (w', Return false)
    /\ new_calls w w' = [CallExists csv_file; CallReadCsv csv_file]
    /\ existsb is_write (new_calls w w') = false
    /\ fs w' = fs w
    /\ path_exists (fs w') excel_file = path_exists (fs w) excel_file.
Proof.
  intros Hex Hrd. eexists. split.
  - apply csv_to_excel_parse_error; eassumption.
  - destruct w as [d so sc]. cbn [fs stdout calls].
    rewrite new_calls_app. cbn. auto.
Qed.

(** ** Further properties of the two scripts *)

(** The inspector's command line.  With an argument count other than 1 it
    prints the usage line and exits with status 1, having made no call;
    with one argument its exit status is 0 when the inspect operation
    returns [True] and 1 when it returns [False]. *)
Theorem inspector_cli_exit_status (argv : list string) (w : World) :
  (arg_count argv <> 1 ->
     run_script (TestExcel.main argv) w
     = (mkWorld (fs w) (stdout w ++ [TestExcel.usage]) (calls w), 1%Z))
  /\ (forall prog file_path : string,
        argv = [prog; file_path] ->
        exists (w' : World) (ok : bool),
          TestExcel.test_excel_file file_path w = (w', Return ok)
          /\ run_script (TestExcel.main argv) w = (w', if ok then 0%Z else 1%Z)).
Proof.
  split.
  - intros Hcount. unfold run_script.
    rewrite inspector_main_usage; [reflexivity|].
    unfold arg_count in Hcount. lia.
  - intros prog file_path ->.
    destruct (test_excel_file_returns file_path w) as (w' & ok & Hrun).
    exists w', ok. split; [exact Hrun|].
    unfold run_script. rewrite (inspector_main_run prog _ _ _ _ Hrun).
    destruct ok; reflexivity.
Qed.

(** The inspect operation always returns a boolean, makes the one call
    that reads the workbook and leaves the filesystem as it was: its only
    effect is console output. *)
Theorem inspector_only_prints (file_path : string) (w : World) :
  exists (w' : World) (ok : bool),
    TestExcel.test_excel_file file_path w = (w', Return ok)
    /\ new_calls w w' = [CallReadExcel file_path]
    /\ fs w' = fs w.
Proof.
  destruct w as [d so sc].
  destruct (test_excel_file_effect file_path d) as (out & ok & H).
  eexists. exists ok. split; [apply H|].
  rewrite new_calls_app. auto.
Qed.

(** When the input exists, parses and is written without failure, the
    convert operation returns [True], prints the one line that names both
    paths, and leaves the filesystem the writer produced. *)
Theorem converter_reports_success
    (csv_file excel_file : string) (w : World) (df : Frame) (d' : FS) :
  path_exists (fs w) csv_file = true ->
  read_csv (fs w) csv_file = Ok df ->
  to_excel df excel_file false (fs w) = (d', Ok tt) ->
  exists w' : World,
    CsvToExcel.csv_to_excel csv_file excel_file w = (w', Return true)
    /\ stdout w'
       = stdout w
         ++ [("Successfully converted " ++ csv_file ++ " to " ++ excel_file)%string]
    /\ fs w' = d'.
Proof.
  intros Hex Hrd Hwr. eexists. split.
  - eapply csv_to_excel_success; eassumption.
  - auto.
Qed.
End Properties.

(* ===================================================================== *)
(** * The properties at work on the toy runtime *)
(* ===================================================================== *)

Section Runs.
#[local] Existing Instance Toy.runtime.

(** ** Runs by evaluation *)

Example run_convert_incidents :
  CsvToExcel.csv_to_excel "incidents.csv" "out.xlsx" Toy.world0
  = (mkWorld
       (("out.xlsx",
         Toy.Workbook [["id"; "status"]; ["1"; "open"]; ["2"; "closed"]; ["3"; "open"]])
          :: Toy.disk0 : FS)
       ["Successfully converted incidents.csv to out.xlsx"]
       [CallExists "incidents.csv"; CallReadCsv "incidents.csv";
        CallToExcel
          (mkFrame ["id"; "status"] [["1"; "open"]; ["2"; "closed"]; ["3"; "open"]])
          "out.xlsx" false],
     Return true).
Proof. reflexivity. Qed.

Example run_convert_missing :
  CsvToExcel.csv_to_excel "nope.csv" "out.xlsx" Toy.world0
  = (mkWorld (Toy.disk0 : FS)
       ["Error: Input file nope.csv does not exist"]
       [CallExists "nope.csv"],
     Return false).
Proof. reflexivity. Qed.

Example run_inspect_old :
  stdout (fst (TestExcel.test_excel_file "old.xlsx" Toy.world0))
  = ["File read successfully!"; "Shape: (1, 2)"; "Columns:"; "  - a"; "  - b";
     (LF ++ "First 5 rows:")%string;
     ("a  b" ++ LF ++ "1  2")%string].
Proof. reflexivity. Qed.

Example run_converter_cli_no_arguments :
  run_script (CsvToExcel.main ["csv_to_excel.py"]) Toy.world0
  = (mkWorld (Toy.disk0 : FS) [CsvToExcel.usage] [], 1%Z).
Proof. reflexivity. Qed.

Example run_inspector_cli_three_arguments :
  run_script (TestExcel.main ["test_excel.py"; "a.xlsx"; "b.xlsx"; "c.xlsx"]) Toy.world0
  = (mkWorld (Toy.disk0 : FS) [TestExcel.usage] [], 1%Z).
Proof. reflexivity. Qed.

(** With [index=True] the toy writer adds the row-index column that
    [index=False] leaves out. *)
Example toy_index_column :
  Toy.sheet_of (mkFrame ["id"] [["7"]; ["9"]]) true = [[""; "id"]; ["0"; "7"]; ["1"; "9"]]
  /\ Toy.sheet_of (mkFrame ["id"] [["7"]; ["9"]]) false = [["id"]; ["7"]; ["9"]].
Proof. split; reflexivity. Qed.
(** ** The theorems applied *)

(** A path the toy disk does not hold. *)
Lemma missing_input_witness :
  path_exists (fs Toy.world0) "nope.csv" = false
  /\ exists w' : World,
       CsvToExcel.csv_to_excel "nope.csv" "out.xlsx" Toy.world0 = (w', Return false)
       /\ stdout w'
          = stdout Toy.world0 ++ ["Error: Input file nope.csv does not exist"]
       /\ new_calls Toy.world0 w' = [CallExists "nope.csv"]
       /\ existsb is_read (new_calls Toy.world0 w') = false
       /\ existsb is_write (new_calls Toy.world0 w') = false
       /\ fs w' = fs Toy.world0
       /\ path_exists (fs w') "out.xlsx" = path_exists (fs Toy.world0) "out.xlsx".
Proof.
  split; [reflexivity|].
  exact (missing_input_reports_failure "nope.csv" "out.xlsx" Toy.world0 eq_refl).
Defined.

(** A parse failure (an empty file) and a write failure (no writer for .txt). *)
Lemma converter_catches_witness :
  (exists w' : World,
      CsvToExcel.csv_to_excel "blank.csv" "out.xlsx" Toy.world0 = (w', Return false)
      /\ stdout w'
         = stdout Toy.world0 ++ ["Error converting file: No columns to parse from file"])
  /\ (exists w' : World,
        CsvToExcel.csv_to_excel "incidents.csv" "out.txt" Toy.world0 = (w', Return false)
        /\ stdout w'
           = stdout Toy.world0 ++ ["Error converting file: No engine for filetype: 'txt'"]).
Proof.
  split.
  - exact (proj1 (proj2 (converter_catches_failures "blank.csv" "out.xlsx" Toy.world0))
             "No columns to parse from file" eq_refl eq_refl).
  - exact (proj2 (proj2 (converter_catches_failures "incidents.csv" "out.txt" Toy.world0))
             (mkFrame ["id"; "status"] [["1"; "open"]; ["2"; "closed"]; ["3"; "open"]])
             Toy.disk0 "No engine for filetype: 'txt'" eq_refl eq_refl eq_refl).
Defined.

(** One argument too few, and a well-formed command line. *)
Lemma converter_cli_witness :
  run_script (CsvToExcel.main ["csv_to_excel.py"; "incidents.csv"]) Toy.world0
  = (mkWorld (fs Toy.world0) (stdout Toy.world0 ++ [CsvToExcel.usage]) (calls Toy.world0),
     1%Z)
  /\ exists (w' : World) (ok : bool),
       CsvToExcel.csv_to_excel "incidents.csv" "out.xlsx" Toy.world0 = (w', Return ok)
       /\ run_script
            (CsvToExcel.main ["csv_to_excel.py"; "incidents.csv"; "out.xlsx"]) Toy.world0
          = (w', if ok then 0%Z else 1%Z).
Proof.
  split.
  - apply (proj1 (converter_cli_exit_status
                    ["csv_to_excel.py"; "incidents.csv"] Toy.world0)).
    discriminate.
  - exact (proj2 (converter_cli_exit_status
                    ["csv_to_excel.py"; "incidents.csv"; "out.xlsx"] Toy.world0)
             "csv_to_excel.py" "incidents.csv" "out.xlsx" eq_refl).
Defined.

(** The report on a workbook of one row and two columns. *)
Lemma inspector_summary_witness :
  read_excel (fs Toy.world0) "old.xlsx" = Ok (mkFrame ["a"; "b"] [["1"; "2"]])
  /\ exists w' : World,
       TestExcel.test_excel_file "old.xlsx" Toy.world0 = (w', Return true)
       /\ stdout w'
          = stdout Toy.world0
            ++ summary_lines (1, 2) ["a"; "b"] ("a  b" ++ LF ++ "1  2")%string
       /\ columns (head (mkFrame ["a"; "b"] [["1"; "2"]])) = ["a"; "b"]
       /\ rows (head (mkFrame ["a"; "b"] [["1"; "2"]])) = firstn 5 [["1"; "2"]]
       /\ (1 < 5 ->
           head (mkFrame ["a"; "b"] [["1"; "2"]]) = mkFrame ["a"; "b"] [["1"; "2"]])
       /\ fs w' = fs Toy.world0.
Proof.
  split; [reflexivity|].
  exact (inspector_prints_summary "old.xlsx" Toy.world0
           (mkFrame ["a"; "b"] [["1"; "2"]]) eq_refl).
Defined.

(** A workbook path the toy disk does not hold. *)
Lemma inspector_failure_witness :
  read_excel (fs Toy.world0) "gone.xlsx" = Err (Toy.no_such_file "gone.xlsx")
  /\ exists w' : World,
       TestExcel.test_excel_file "gone.xlsx" Toy.world0 = (w', Return false)
       /\ stdout w'
          = stdout Toy.world0
            ++ ["Error reading file: [Errno 2] No such file or directory: 'gone.xlsx'"]
       /\ fs w' = fs Toy.world0
       /\ forall prog : string,
            run_script (TestExcel.main [prog; "gone.xlsx"]) Toy.world0 = (w', 1%Z).
Proof.
  split; [reflexivity|].
  exact (inspector_reports_read_failure "gone.xlsx" (Toy.no_such_file "gone.xlsx")
           Toy.world0 eq_refl).
Defined.

(** The frame handed to the writer for the three incidents. *)
Lemma writes_parsed_frame_witness :
  exists (w' : World) (ok : bool) (written : Frame) (index : bool),
    CsvToExcel.csv_to_excel "incidents.csv" "out.xlsx" Toy.world0 = (w', Return ok)
    /\ new_calls Toy.world0 w'
       = [CallExists "incidents.csv"; CallReadCsv "incidents.csv";
          CallToExcel written "out.xlsx" index]
    /\ columns written = ["id"; "status"]
    /\ rows written = [["1"; "open"]; ["2"; "closed"]; ["3"; "open"]]
    /\ (NoDup ["id"; "status"] -> NoDup (columns written))
    /\ index = false
    /\ fs w' = fst (to_excel written "out.xlsx" index (fs Toy.world0)).
Proof.
  exact (proj1 (converter_writes_parsed_frame "incidents.csv" "out.xlsx" Toy.world0)
           (mkFrame ["id"; "status"] [["1"; "open"]; ["2"; "closed"]; ["3"; "open"]])
           eq_refl eq_refl).
Defined.

(** An existing, empty input: read, never written. *)
Lemma parse_failure_witness :
  path_exists (fs Toy.world0) "blank.csv" = true
  /\ read_csv (fs Toy.world0) "blank.csv" = Err "No columns to parse from file"
  /\ exists w' : World,
       CsvToExcel.csv_to_excel "blank.csv" "out.xlsx" Toy.world0 = (w', Return false)
       /\ new_calls Toy.world0 w' = [CallExists "blank.csv"; CallReadCsv "blank.csv"]
       /\ existsb is_write (new_calls Toy.world0 w') = false
       /\ fs w' = fs Toy.world0
       /\ path_exists (fs w') "out.xlsx" = path_exists (fs Toy.world0) "out.xlsx".
Proof.
  split; [reflexivity|]. split; [reflexivity|].
  exact (parse_failure_skips_write "blank.csv" "out.xlsx"
           "No columns to parse from file" Toy.world0 eq_refl eq_refl).
Defined.

(** No argument, and one argument. *)
Lemma inspector_cli_witness :
  run_script (TestExcel.main ["test_excel.py"]) Toy.world0
  = (mkWorld (fs Toy.world0) (stdout Toy.world0 ++ [TestExcel.usage]) (calls Toy.world0),
     1%Z)
  /\ exists (w' : World) (ok : bool),
       TestExcel.test_excel_file "old.xlsx" Toy.world0 = (w', Return ok)
       /\ run_script (TestExcel.main ["test_excel.py"; "old.xlsx"]) Toy.world0
          = (w', if ok then 0%Z else 1%Z).
Proof.
  split.
  - apply (proj1 (inspector_cli_exit_status ["test_excel.py"] Toy.world0)).
    discriminate.
  - exact (proj2 (inspector_cli_exit_status ["test_excel.py"; "old.xlsx"] Toy.world0)
             "test_excel.py" "old.xlsx" eq_refl).
Defined.

(** The success line for the three incidents. *)
Lemma converter_success_witness :
  exists w' : World,
    CsvToExcel.csv_to_excel "incidents.csv" "out.xlsx" Toy.world0 = (w', Return true)
    /\ stdout w'
       = stdout Toy.world0 ++ ["Successfully converted incidents.csv to out.xlsx"]
    /\ fs w' = fs Toy.converted.
Proof.
  exact (converter_reports_success "incidents.csv" "out.xlsx" Toy.world0
           (mkFrame ["id"; "status"] [["1"; "open"]; ["2"; "closed"]; ["3"; "open"]])
           (fs Toy.converted) eq_refl eq_refl eq_refl).
Defined.
End Runs.

(* ===================================================================== *)
(** * Whole-run behaviour of the two command lines *)
(* ===================================================================== *)

Section WholeRuns.
Context {R : Runtime}.

Lemma three_arguments (argv : list string) :
  length argv = 3 -> exists a b c : string, argv = [a; b; c].
Proof.
  destruct argv as [|a [|b [|c [|x l]]]]; cbn; intros H; try discriminate.
  eauto.
Qed.

Lemma two_arguments (argv : list string) :
  length argv = 2 -> exists a b : string, argv = [a; b].
Proof.
  destruct argv as [|a [|b [|x l]]]; cbn; intros H; try discriminate.
  eauto.
Qed.

(** A run of the inspector that returned [True] read a frame. *)
Lemma test_excel_file_true_inv (file_path : string) (w w' : World) :
  TestExcel.test_excel_file file_path w = (w', Return true) ->
  exists df : Frame, read_excel (fs w) file_path = Ok df.
Proof.
  intros Hrun.
  destruct (read_excel (fs w) file_path) as [df|msg] eqn:Hrd; [eauto|].
  rewrite (test_excel_file_error _ _ _ Hrd) in Hrun. discriminate.
Qed.

(** The one line [csv_to_excel] prints, by the way it went. *)
Lemma csv_to_excel_one_line (csv_file excel_file : string) (w : World) :
  exists (w' : World) (ok : bool) (line : string),
    CsvToExcel.csv_to_excel csv_file excel_file w = (w', Return ok)
    /\ stdout w' = stdout w ++ [line]
    /\ ((ok = false
         /\ line = ("Error: Input file " ++ csv_file ++ " does not exist")%string)
        \/ (ok = false
            /\ exists msg : string, line = ("Error converting file: " ++ msg)%string)
        \/ (ok = true
            /\ line
               = ("Successfully converted " ++ csv_file ++ " to " ++ excel_file)%string)).
Proof.
  destruct (path_exists (fs w) csv_file) eqn:Hex.
  - destruct (read_csv (fs w) csv_file) as [df|msg] eqn:Hrd.
    + destruct (to_excel df excel_file false (fs w)) as [d' [[]|msg]] eqn:Hwr.
      * do 3 eexists. split; [eapply csv_to_excel_success; eassumption|].
        split; [reflexivity|]. right; right. auto.
      * do 3 eexists. split; [eapply csv_to_excel_write_error; eassumption|].
        split; [reflexivity|]. right; left. eauto.
    + do 3 eexists. split; [eapply csv_to_excel_parse_error; eassumption|].
      split; [reflexivity|]. right; left. eauto.
  - do 3 eexists. split; [eapply csv_to_excel_missing; eassumption|].
    split; [reflexivity|]. left. auto.
Qed.

(** The converter's command line ended with status 0: what went before. *)
Lemma converter_cli_zero_inv (argv : list string) (w w1 : World) :
  run_script (CsvToExcel.main argv) w = (w1, 0%Z) ->
  exists (prog csv_file excel_file : string) (df : Frame),
    argv = [prog; csv_file; excel_file]
    /\ path_exists (fs w) csv_file = true
    /\ read_csv (fs w) csv_file = Ok df
    /\ to_excel df excel_file false (fs w) = (fs w1, Ok tt)
    /\ CsvToExcel.csv_to_excel csv_file excel_file w = (w1, Return true).
Proof.
  intros Hrun. unfold run_script in Hrun.
  destruct (Nat.eq_dec (length argv) 3) as [Hlen|Hlen].
  - destruct (three_arguments argv Hlen) as (prog & a & b & ->).
    destruct (csv_to_excel_returns a b w) as (w' & ok & Hc).
    rewrite (converter_main_run prog _ _ _ _ _ Hc) in Hrun.
    destruct ok; [|discriminate].
    injection Hrun as <-.
    destruct (csv_to_excel_true_inv _ _ _ _ Hc) as (df & Hex & Hrd & Hwr).
    exists prog, a, b, df. auto.
  - rewrite (converter_main_usage _ _ Hlen) in Hrun. discriminate.
Qed.

(** The converter's command line exits with 0 or 1, and with 0 exactly
    when it was given two arguments, the first names an input that
    exists and parses, and the write to the second did not fail. *)
Theorem converter_cli_exits_zero_iff (argv : list string) (w : World) :
  (snd (run_script (CsvToExcel.main argv) w) = 0%Z
   \/ snd (run_script (CsvToExcel.main argv) w) = 1%Z)
  /\ (snd (run_script (CsvToExcel.main argv) w) = 0%Z
      <-> exists (prog csv_file excel_file : string) (df : Frame) (d' : FS),
            argv = [prog; csv_file; excel_file]
            /\ path_exists (fs w) csv_file = true
            /\ read_csv (fs w) csv_file = Ok df
            /\ to_excel df excel_file false (fs w) = (d', Ok tt)).
Proof.
  split.
  - destruct (Nat.eq_dec (length argv) 3) as [Hlen|Hlen].
    + destruct (three_arguments argv Hlen) as (prog & a & b & ->).
      destruct (csv_to_excel_returns a b w) as (w' & ok & Hc).
      unfold run_script. rewrite (converter_main_run prog _ _ _ _ _ Hc).
      destruct ok; cbn; auto.
    + unfold run_script. rewrite (converter_main_usage _ _ Hlen). cbn. auto.
  - split.
    + intros H0.
      destruct (run_script (CsvToExcel.main argv) w) as [w1 z] eqn:Hrun.
      cbn in H0. subst z.
      destruct (converter_cli_zero_inv _ _ _ Hrun)
        as (prog & a & b & df & Hargv & Hex & Hrd & Hwr & _).
      exists prog, a, b, df, (fs w1). auto.
    + intros (prog & a & b & df & d' & -> & Hex & Hrd & Hwr).
      unfold run_script.
      rewrite (converter_main_run prog _ _ _ _ _
                 (csv_to_excel_success _ _ _ _ _ Hex Hrd Hwr)).
      reflexivity.
Qed.

(** The inspector's command line exits with 0 or 1, and with 0 exactly
    when it was given one argument and the library read a frame from that
    path. *)
Theorem inspector_cli_exits_zero_iff (argv : list string) (w : World) :
  (snd (run_script (TestExcel.main argv) w) = 0%Z
   \/ snd (run_script (TestExcel.main argv) w) = 1%Z)
  /\ (snd (run_script (TestExcel.main argv) w) = 0%Z
      <-> exists (prog file_path : string) (df : Frame),
            argv = [prog; file_path] /\ read_excel (fs w) file_path = Ok df).
Proof.
  split.
  - destruct (Nat.eq_dec (length argv) 2) as [Hlen|Hlen].
    + destruct (two_arguments argv Hlen) as (prog & p & ->).
      destruct (test_excel_file_returns p w) as (w' & ok & Hc).
      unfold run_script. rewrite (inspector_main_run prog _ _ _ _ Hc).
      destruct ok; cbn; auto.
    + unfold run_script. rewrite (inspector_main_usage _ _ Hlen). cbn. auto.
  - split.
    + intros H0.
      destruct (Nat.eq_dec (length argv) 2) as [Hlen|Hlen].
      * destruct (two_arguments argv Hlen) as (prog & p & ->).
        destruct (test_excel_file_returns p w) as (w' & ok & Hc).
        unfold run_script in H0. rewrite (inspector_main_run prog _ _ _ _ Hc) in H0.
        destruct ok; [|discriminate].
        destruct (test_excel_file_true_inv _ _ _ Hc) as (df & Hrd).
        exists prog, p, df. auto.
      * unfold run_script in H0. rewrite (inspector_main_usage _ _ Hlen) in H0.
        discriminate.
    + intros (prog & p & df & -> & Hrd).
      unfold run_script.
      rewrite (inspector_main_run prog _ _ _ _ (test_excel_file_success _ _ _ Hrd)).
      reflexivity.
Qed.
(** Every run of the converter's command line prints exactly one line,
    and the line tells the exit status: the usage line, the missing-input
    line and the "Error converting file" line go with status 1, the
    success line with status 0. *)
Theorem converter_cli_prints_one_line (argv : list string) (w : World) :
  exists (w' : World) (code : Z) (line : string),
    run_script (CsvToExcel.main argv) w = (w', code)
    /\ stdout w' = stdout w ++ [line]
    /\ ((length argv <> 3 /\ code = 1%Z /\ line = CsvToExcel.usage)
        \/ exists prog csv_file excel_file : string,
             argv = [prog; csv_file; excel_file]
             /\ ((code = 1%Z
                  /\ line = ("Error: Input file " ++ csv_file ++ " does not exist")%string)
                 \/ (code = 1%Z
                     /\ exists msg : string,
                          line = ("Error converting file: " ++ msg)%string)
                 \/ (code = 0%Z
                     /\ line
                        = ("Successfully converted " ++ csv_file ++ " to "
                           ++ excel_file)%string))).
Proof.
  destruct (Nat.eq_dec (length argv) 3) as [Hlen|Hlen].
  - destruct (three_arguments argv Hlen) as (prog & a & b & ->).
    destruct (csv_to_excel_one_line a b w) as (w' & ok & line & Hc & Hout & Hline).
    exists w', (if ok then 0%Z else 1%Z), line. split; [|split; [exact Hout|]].
    + unfold run_script. rewrite (converter_main_run prog _ _ _ _ _ Hc).
      destruct ok; reflexivity.
    + right. exists prog, a, b. split; [reflexivity|].
      destruct Hline as [[-> ->]|[[-> Hm]|[-> ->]]]; auto.
  - do 3 eexists. split; [|split].
    + unfold run_script. rewrite (converter_main_usage _ _ Hlen). reflexivity.
    + reflexivity.
    + left. auto.
Qed.

(** Neither command line ends in an uncaught [Exception]: whatever the
    arguments and the runtime, the script body runs to its end or leaves
    through [sys.exit(1)].  In particular the reads of [sys.argv[1]] and
    [sys.argv[2]] never raise [IndexError]. *)
Theorem command_lines_end_cleanly (argv : list string) (w : World) :
  (exists w' : World,
      CsvToExcel.main argv w = (w', Return tt)
      \/ CsvToExcel.main argv w = (w', Raise (SystemExit 1)))
  /\ (exists w' : World,
        TestExcel.main argv w = (w', Return tt)
        \/ TestExcel.main argv w = (w', Raise (SystemExit 1))).
Proof.
  split.
  - destruct (Nat.eq_dec (length argv) 3) as [Hlen|Hlen].
    + destruct (three_arguments argv Hlen) as (prog & a & b & ->).
      destruct (csv_to_excel_returns a b w) as (w' & ok & Hc).
      exists w'. rewrite (converter_main_run prog _ _ _ _ _ Hc).
      destruct ok; auto.
    + eexists. right. apply converter_main_usage. exact Hlen.
  - destruct (Nat.eq_dec (length argv) 2) as [Hlen|Hlen].
    + destruct (two_arguments argv Hlen) as (prog & p & ->).
      destruct (test_excel_file_returns p w) as (w' & ok & Hc).
      exists w'. rewrite (inspector_main_run prog _ _ _ _ Hc).
      destruct ok; auto.
    + eexists. right. apply inspector_main_usage. exact Hlen.
Qed.

(** The calls of the convert operation come in one order and stop at the
    first obstacle: the existence test alone when the input is missing;
    the test and the read when the parse fails; the test, the read and
    one write of the parsed frame otherwise.  So nothing is read before
    [os.path.exists] said yes, nothing is written before the parse
    succeeded, and no workbook is ever read. *)
Theorem converter_call_order (csv_file excel_file : string) (w : World) :
  (path_exists (fs w) csv_file = false
   /\ new_calls w (fst (CsvToExcel.csv_to_excel csv_file excel_file w))
      = [CallExists csv_file])
  \/ (path_exists (fs w) csv_file = true
      /\ (exists msg : string, read_csv (fs w) csv_file = Err msg)
      /\ new_calls w (fst (CsvToExcel.csv_to_excel csv_file excel_file w))
         = [CallExists csv_file; CallReadCsv csv_file])
  \/ (path_exists (fs w) csv_file = true
      /\ exists df : Frame,
           read_csv (fs w) csv_file = Ok df
           /\ new_calls w (fst (CsvToExcel.csv_to_excel csv_file excel_file w))
              = [CallExists csv_file; CallReadCsv csv_file;
                 CallToExcel df excel_file false]).
Proof.
  destruct (path_exists (fs w) csv_file) eqn:Hex.
  - destruct (read_csv (fs w) csv_file) as [df|msg] eqn:Hrd.
    + right; right. split; [reflexivity|]. exists df. split; [reflexivity|].
      destruct (to_excel df excel_file false (fs w)) as [d' [[]|msg]] eqn:Hwr.
      * rewrite (csv_to_excel_success _ _ _ _ _ Hex Hrd Hwr).
        destruct w as [d so sc]. apply new_calls_app.
      * rewrite (csv_to_excel_write_error _ _ _ _ _ _ Hex Hrd Hwr).
        destruct w as [d so sc]. apply new_calls_app.
    + right; left. split; [reflexivity|]. split; [eauto|].
      rewrite (csv_to_excel_parse_error _ excel_file _ _ Hex Hrd).
      destruct w as [d so sc]. apply new_calls_app.
  - left. split; [reflexivity|].
    rewrite (csv_to_excel_missing _ excel_file _ Hex).
    destruct w as [d so sc]. apply new_calls_app.
Qed.

(** The convert operation changes files only through the writer: the
    filesystem after a run is the one it started from, or the one the
    single [to_excel] call on the parsed frame left behind, whether that
    call succeeded or failed (nothing is cleaned up after a failed
    write). *)
Theorem converter_changes_files_only_by_writer
    (csv_file excel_file : string) (w : World) :
  fs (fst (CsvToExcel.csv_to_excel csv_file excel_file w)) = fs w
  \/ exists df : Frame,
       path_exists (fs w) csv_file = true
       /\ read_csv (fs w) csv_file = Ok df
       /\ fs (fst (CsvToExcel.csv_to_excel csv_file excel_file w))
          = fst (to_excel df excel_file false (fs w)).
Proof.
  destruct (path_exists (fs w) csv_file) eqn:Hex.
  - destruct (read_csv (fs w) csv_file) as [df|msg] eqn:Hrd.
    + right. exists df. split; [reflexivity|]. split; [reflexivity|].
      destruct (to_excel df excel_file false (fs w)) as [d' [[]|msg]] eqn:Hwr.
      * rewrite (csv_to_excel_success _ _ _ _ _ Hex Hrd Hwr). reflexivity.
      * rewrite (csv_to_excel_write_error _ _ _ _ _ _ Hex Hrd Hwr). reflexivity.
    + left. rewrite (csv_to_excel_parse_error _ excel_file _ _ Hex Hrd). reflexivity.
  - left. rewrite (csv_to_excel_missing _ excel_file _ Hex). reflexivity.
Qed.

End WholeRuns.

Section WholeRunsAtWork.
#[local] Existing Instance Toy.runtime.

End WholeRunsAtWork.

(* ===================================================================== *)
(** * Where a CSV and its workbook part ways *)
(* ===================================================================== *)

Section PartingWays.
#[local] Existing Instance PandasLike.runtime.





End PartingWays.
